(** * cltk/tokenize/sentence.py: sentence tokenizer for Greek and Latin

    A shallow embedding of [cltk.tokenize.sentence]: the [PUNCTUATION]
    table, the class [TokenizeSentence] and the function [open_pickle].

    Python code runs in a world of module globals, a file store and a log
    of the I/O it performs; exceptions are explicit results.  NLTK's Punkt
    tokenizer, a third-party library, is an interface ([Punkt]) the
    embedding is parametric in. *)

From Stdlib Require Import String Ascii List ZArith Bool DecimalString.
Import ListNotations.
Open Scope string_scope.

(** ** Python values and exceptions *)

(** The Python values a caller can hand to [tokenize_sentences], and the
    values it returns. *)
#[warnings="-register-all"]
Inductive value : Type :=
| VNone
| VBool (b : bool)
| VInt (z : Z)
| VStr (s : string)
| VBytes (b : string)
| VList (l : list value).

(** [isinstance(v, str)] *)
Definition isinstance_str (v : value) : bool :=
  match v with VStr _ => true | _ => false end.

(** [type(v).__name__] *)
Definition type_name (v : value) : string :=
  match v with
  | VNone => "NoneType"
  | VBool _ => "bool"
  | VInt _ => "int"
  | VStr _ => "str"
  | VBytes _ => "bytes"
  | VList _ => "list"
  end.

(** The exceptions that occur in the module.  [IOError] stands for
    [OSError] and its subclasses, [PickleError] for [pickle.PickleError]
    and its subclasses. *)
Inductive exn : Type :=
| AssertionError (msg : string)
| SystemExit (code : Z)
| IOError (msg : string)
| PickleError (msg : string)
| EOFError (msg : string)
| AttributeError (msg : string)
| KeyError (key : string).

(** The class of an exception: what an [except] clause or a caller's
    [isinstance] test can see apart from the payload. *)
Inductive exn_type : Type :=
| AssertionError_t | SystemExit_t | IOError_t
| PickleError_t | EOFError_t | AttributeError_t | KeyError_t.

Definition type_of_exn (e : exn) : exn_type :=
  match e with
  | AssertionError _ => AssertionError_t
  | SystemExit _ => SystemExit_t
  | IOError _ => IOError_t
  | PickleError _ => PickleError_t
  | EOFError _ => EOFError_t
  | AttributeError _ => AttributeError_t
  | KeyError _ => KeyError_t
  end.

Definition is_IOError (e : exn) : bool :=
  match e with IOError _ => true | _ => false end.

Definition is_PickleError (e : exn) : bool :=
  match e with PickleError _ => true | _ => false end.

(** [str(e)], as [print(e)] shows it. *)
Definition exn_str (e : exn) : string :=
  match e with
  | AssertionError m | IOError m | PickleError m
  | EOFError m | AttributeError m => m
  | KeyError k => "'" ++ k ++ "'"
  | SystemExit c => NilZero.string_of_int (Z.to_int c)
  end.

(** ** Strings and paths *)

(** [str.lower] on the ASCII letters; other bytes are kept (the strings
    hold UTF-8, and Python's [lower] agrees on ASCII text). *)
Definition lower_ascii (c : ascii) : ascii :=
  let n := nat_of_ascii c in
  if (65 <=? n)%nat && (n <=? 90)%nat then ascii_of_nat (n + 32) else c.

Fixpoint lower (s : string) : string :=
  match s with
  | EmptyString => EmptyString
  | String c r => String (lower_ascii c) (lower r)
  end.

Definition startswith (s p : string) : bool := String.prefix p s.

Fixpoint endswith_slash (s : string) : bool :=
  match s with
  | EmptyString => false
  | String c EmptyString => Ascii.eqb c "/"
  | String _ r => endswith_slash r
  end.

(** [posixpath.join]: a component that starts with a slash restarts the
    path; a separator is put in unless the path is empty or ends in one. *)
Definition join_step (path b : string) : string :=
  if startswith b "/" then b
  else if String.eqb path "" || endswith_slash path then path ++ b
  else path ++ "/" ++ b.

Definition os_path_join (a : string) (p : list string) : string :=
  fold_left join_step p a.

(** [s.rstrip('/')] *)
Fixpoint rstrip_slash (s : string) : string :=
  match s with
  | EmptyString => EmptyString
  | String c r =>
      match rstrip_slash r with
      | EmptyString => if Ascii.eqb c "/" then EmptyString else String c EmptyString
      | r' => String c r'
      end
  end.

(** [path.find('/', 1)] for a path that starts with a tilde: the length of
    the user part, tilde included. *)
Fixpoint find_slash (s : string) : nat :=
  match s with
  | EmptyString => 0
  | String c r => if Ascii.eqb c "/" then 0 else S (find_slash r)
  end.

Fixpoint drop (n : nat) (s : string) : string :=
  match n, s with
  | O, _ => s
  | S _, EmptyString => EmptyString
  | S n', String _ r => drop n' r
  end.

(** [posixpath.expanduser] with [HOME] set to [home].  A path [~user/...]
    is returned as it is, which is what Python does for a user the account
    database does not know; no account database is modelled. *)
Definition os_path_expanduser (home path : string) : string :=
  match path with
  | String "~" rest =>
      let i := S (find_slash rest) in
      if Nat.eqb i 1 then
        let r := rstrip_slash home ++ drop i path in
        if String.eqb r "" then "/" else r
      else path
  | _ => path
  end.

(** [str.isspace] on the ASCII white space: blank, tab, line feed,
    carriage return. *)
Definition is_space (c : ascii) : bool :=
  let n := nat_of_ascii c in
  Nat.eqb n 32 || Nat.eqb n 9 || Nat.eqb n 10 || Nat.eqb n 13.

Fixpoint lstrip_space (s : string) : string :=
  match s with
  | String c r => if is_space c then lstrip_space r else s
  | EmptyString => EmptyString
  end.

(** The spans, in this order and one after the other, with nothing but
    white space before, between and after them, make up the text. *)
Fixpoint rebuilds (text : string) (spans : list string) : bool :=
  match spans with
  | [] => String.eqb (lstrip_space text) ""
  | span :: rest =>
      let t := lstrip_space text in
      String.prefix span t && rebuilds (drop (String.length span) t) rest
  end.

(** ** The punctuation table *)

(** The inner dictionaries of [PUNCTUATION]: keys ['external'],
    ['internal'] and ['file']. *)
Record profile : Type := {
  external : list string;
  internal : list string;
  file : string
}.

(** A dictionary with string keys, in insertion order. *)
Definition dict (V : Type) : Type := list (string * V).

Fixpoint dict_get {V : Type} (d : dict V) (k : string) : option V :=
  match d with
  | [] => None
  | (k', v) :: r => if String.eqb k' k then Some v else dict_get r k
  end.

Definition dict_keys {V : Type} (d : dict V) : list string := map fst d.

Definition PUNCTUATION : dict profile :=
  [ ("greek", {| external := ["."; ";"];
                 internal := [","; "·"];
                 file := "greek.pickle" |});
    ("latin", {| external := ["."; "?"; ":"];
                 internal := [","; ";"];
                 file := "latin.pickle" |}) ].

(** Membership of a one-character string in a tuple of them. *)
Definition mem_str (x : string) (l : list string) : bool :=
  existsb (String.eqb x) l.

(** [external ∩ internal = ∅] for one profile, as a test. *)
Definition disjoint_chars (p : profile) : bool :=
  forallb (fun c => negb (mem_str c (internal p))) (external p).

(** ** NLTK's Punkt *)

(** The class attributes of [nltk.tokenize.punkt.PunktLanguageVars] that
    the module assigns: they live on the class, one copy per process. *)
Module PunktLanguageVars.

Record t : Type := {
  sent_end_chars : list string;
  internal_punctuation : list string
}.

(** NLTK's own defaults. *)
Definition default : t :=
  {| sent_end_chars := ["."; "?"; "!"];
     internal_punctuation := [","; ":"; ";"] |}.

End PunktLanguageVars.

(** What the module uses of the Punkt library: the training state held
    by an unpickled tokenizer, [get_params] (which may look at the two
    collocation flags), and [sentences_from_text] of a
    [PunktSentenceTokenizer] built from parameters, which reads the class
    attributes of [PunktLanguageVars] when it is called. *)
Class Punkt : Type := {
  trainer_data : Type;
  PunktParameters : Type;
  punkt_get_params : bool -> bool -> trainer_data -> PunktParameters;
  punkt_sentences_from_text :
    PunktParameters -> PunktLanguageVars.t -> string -> bool -> list string
}.

(** A call returns a value or raises. *)
Inductive result (A : Type) : Type :=
| Return (a : A)
| Raise (e : exn).
Arguments Return {A} a.
Arguments Raise {A} e.

Section Module_sentence.

Context {P : Punkt}.

(** ** Objects, files and the world *)

(** An unpickled tokenizer: its two collocation flags (instance
    attributes) and its training state. *)
Record trainer : Type := {
  INCLUDE_ALL_COLLOCS : bool;
  INCLUDE_ABBREV_COLLOCS : bool;
  data : trainer_data
}.

(** What a pickle can hold: a Punkt tokenizer; a plain built-in value,
    which takes no attribute; or an object of some other class, which
    takes attributes and has no method [get_params] (a
    [types.SimpleNamespace], a [PunktSentenceTokenizer]). *)
Inductive pyobj : Type :=
| Trainer (t : trainer)
| Plain (v : value)
| Other (class_name : string).

(** A file is known by what opening and unpickling it does: [pickle.load]
    returns an object or raises, or the file is there and [open] refuses
    it with an [IOError] (no permission, say). *)
Inductive pickle_outcome : Type :=
| Loads (o : pyobj)
| Fails (e : exn)
| Denied (msg : string).

(** An open file, known by what [pickle.load] yields on it. *)
Definition opened_file : Type := result pyobj.

(** The I/O the module performs, in the order it happens. *)
Inductive io_event : Type :=
| IsFile (path : string)
| Open (path : string)
| Load (path : string)
| Close (path : string)
| Print (line : string).

(** The process and its surroundings: the [HOME] variable, the file
    store, the I/O performed so far, and the two module-level objects the
    code shares between all instances. *)
Record world : Type := {
  HOME : string;
  fs : dict pickle_outcome;
  io_log : list io_event;
  g_PUNCTUATION : dict profile;
  g_PunktLanguageVars : PunktLanguageVars.t
}.

(** The world right after the module is imported. *)
Definition module_load (home : string) (files : dict pickle_outcome) : world :=
  {| HOME := home; fs := files; io_log := [];
     g_PUNCTUATION := PUNCTUATION;
     g_PunktLanguageVars := PunktLanguageVars.default |}.

(** ** Computations: state and exceptions *)

Definition M (A : Type) : Type := world -> result A * world.

Definition ret {A : Type} (a : A) : M A := fun w => (Return a, w).

Definition raise {A : Type} (e : exn) : M A := fun w => (Raise e, w).

Definition bind {A B : Type} (m : M A) (k : A -> M B) : M B :=
  fun w =>
    match m w with
    | (Return a, w') => k a w'
    | (Raise e, w') => (Raise e, w')
    end.

(** [try: body / except C as e: handler(e)], [C] given by its instance
    test. *)
Definition try_except {A : Type} (body : M A) (C : exn -> bool)
    (handler : exn -> M A) : M A :=
  fun w =>
    match body w with
    | (Raise e, w') => if C e then handler e w' else (Raise e, w')
    | r => r
    end.

(** [try: body / finally: cleanup] *)
Definition try_finally {A : Type} (body : M A) (cleanup : world -> world) : M A :=
  fun w => let '(r, w') := body w in (r, cleanup w').

Definition emit (ev : io_event) (w : world) : world :=
  {| HOME := HOME w; fs := fs w; io_log := io_log w ++ [ev];
     g_PUNCTUATION := g_PUNCTUATION w;
     g_PunktLanguageVars := g_PunktLanguageVars w |}.

Definition set_PunktLanguageVars (v : PunktLanguageVars.t) (w : world) : world :=
  {| HOME := HOME w; fs := fs w; io_log := io_log w;
     g_PUNCTUATION := g_PUNCTUATION w;
     g_PunktLanguageVars := v |}.

Definition modify (f : world -> world) : M unit := fun w => (Return tt, f w).

Definition gets {A : Type} (f : world -> A) : M A := fun w => (Return (f w), w).

#[local] Notation "x <- m ;; k" := (bind m (fun x => k))
  (at level 61, m at next level, right associativity).
#[local] Notation "m ;;; k" := (bind m (fun _ => k))
  (at level 61, right associativity).

(** [assert cond, msg] *)
Definition assert_ (cond : bool) (msg : string) : M unit :=
  if cond then ret tt else raise (AssertionError msg).

(** [d[k]] *)
Definition dict_item {V : Type} (d : dict V) (k : string) : M V :=
  match dict_get d k with
  | Some v => ret v
  | None => raise (KeyError k)
  end.

(** ** The operating system and the standard library *)

(** [os.path.isfile(path)] *)
Definition os_path_isfile (path : string) : M bool :=
  fun w =>
    (Return (match dict_get (fs w) path with Some _ => true | None => false end),
     emit (IsFile path) w).

(** [open(path, 'rb')]: the opened file, or [IOError] when there is none
    or when the file refuses to be opened. *)
Definition open_rb (path : string) : M opened_file :=
  fun w =>
    match dict_get (fs w) path with
    | Some (Loads o) => (Return (Return o), emit (Open path) w)
    | Some (Fails e) => (Return (Raise e), emit (Open path) w)
    | Some (Denied msg) => (Raise (IOError msg), emit (Open path) w)
    | None =>
        (Raise (IOError ("[Errno 2] No such file or directory: '" ++ path ++ "'")),
         emit (Open path) w)
    end.

(** [with open(path, 'rb') as f: body]: the file is closed however the
    body ends. *)
Definition with_open {A : Type} (path : string) (body : opened_file -> M A) : M A :=
  f <- open_rb path ;;
  try_finally (body f) (emit (Close path)).

(** [pickle.load(f)] *)
Definition pickle_load (path : string) (f : opened_file) : M pyobj :=
  fun w => (f, emit (Load path) w).

Definition print (line : string) : M unit := modify (emit (Print line)).

(** [sys.exit(code)] raises [SystemExit]. *)
Definition sys_exit {A : Type} (code : Z) : M A := raise (SystemExit code).

(** ** [open_pickle] *)

Definition open_pickle (path : string) : M pyobj :=
  try_except
    (with_open path (fun opened_pickle =>
       try_except (pickle_load path opened_pickle)
         is_PickleError
         (fun pickle_error => print (exn_str pickle_error) ;;; sys_exit 1)))
    is_IOError
    (fun io_err => print (exn_str io_err) ;;; sys_exit 1).

(** ** The class [TokenizeSentence] *)

Record TokenizeSentence : Type := {
  language : string;
  internal_punctuation : list string;
  external_punctuation : list string;
  tokenizer_path : string
}.

Definition _setup_language_variables (lang : string)
    : M (list string * list string * string) :=
  punctuation <- gets g_PUNCTUATION ;;
  assert_ (mem_str lang (dict_keys punctuation))
    "Sentence tokenizer not available for language." ;;;
  entry <- dict_item punctuation lang ;;
  let internal_punctuation := internal entry in
  let external_punctuation := external entry in
  let file := file entry in
  let rel_path :=
    os_path_join "~/cltk_data"
      [lang; "trained_model/cltk_linguistic_data/tokenizers/sentence"] in
  home <- gets HOME ;;
  let path := os_path_expanduser home rel_path in
  let tokenizer_path := os_path_join path [file] in
  isfile <- os_path_isfile tokenizer_path ;;
  assert_ isfile "CLTK linguistics data not available." ;;;
  ret (internal_punctuation, external_punctuation, tokenizer_path).

Definition __init__ (language : string) : M TokenizeSentence :=
  let language := lower language in
  vars <- _setup_language_variables language ;;
  let '(internal_punctuation, external_punctuation, tokenizer_path) := vars in
  ret {| language := language;
         internal_punctuation := internal_punctuation;
         external_punctuation := external_punctuation;
         tokenizer_path := tokenizer_path |}.

(** A [PunktSentenceTokenizer] built from parameters. *)
Record PunktSentenceTokenizer : Type := { _params : PunktParameters }.

(** [tokenizer.get_params()] *)
Definition get_params (t : trainer) : PunktParameters :=
  punkt_get_params (INCLUDE_ALL_COLLOCS t) (INCLUDE_ABBREV_COLLOCS t) (data t).

(** [pst.sentences_from_text(text, realign_boundaries)]: the tokenizer
    looks the punctuation up on the class [PunktLanguageVars] when it
    runs. *)
Definition sentences_from_text (pst : PunktSentenceTokenizer) (text : string)
    (realign_boundaries : bool) : M (list string) :=
  lang_vars <- gets g_PunktLanguageVars ;;
  ret (punkt_sentences_from_text (_params pst) lang_vars text realign_boundaries).

(** [language_punkt_vars] is the class [PunktLanguageVars] itself, not an
    instance: the two assignments write the class attributes.  A plain
    value has no attribute to set; an object of another class takes the
    two flags and fails at [get_params]. *)
Definition _setup_tokenizer (self : TokenizeSentence) (tokenizer : pyobj)
    : M PunktSentenceTokenizer :=
  modify (fun w => set_PunktLanguageVars
            {| PunktLanguageVars.sent_end_chars := external_punctuation self;
               PunktLanguageVars.internal_punctuation :=
                 PunktLanguageVars.internal_punctuation (g_PunktLanguageVars w) |} w) ;;;
  modify (fun w => set_PunktLanguageVars
            {| PunktLanguageVars.sent_end_chars :=
                 PunktLanguageVars.sent_end_chars (g_PunktLanguageVars w);
               PunktLanguageVars.internal_punctuation := internal_punctuation self |} w) ;;;
  match tokenizer with
  | Plain v =>
      raise (AttributeError
               ("'" ++ type_name v ++ "' object has no attribute 'INCLUDE_ALL_COLLOCS'"))
  | Other class_name =>
      raise (AttributeError
               ("'" ++ class_name ++ "' object has no attribute 'get_params'"))
  | Trainer t =>
      let t := {| INCLUDE_ALL_COLLOCS := true;
                  INCLUDE_ABBREV_COLLOCS := INCLUDE_ABBREV_COLLOCS t;
                  data := data t |} in
      let t := {| INCLUDE_ALL_COLLOCS := INCLUDE_ALL_COLLOCS t;
                  INCLUDE_ABBREV_COLLOCS := true;
                  data := data t |} in
      let params := get_params t in
      ret {| _params := params |}
  end.

(** [list.append]: the list grows, the call returns [None]. *)
Definition list_append (l : list value) (x : value) : list value * value :=
  ((l ++ [x])%list, VNone).

(** [[tokenized_sentences.append(sentence) for sentence in sentences]]:
    the local list after the loop, and the list the comprehension builds
    from what each [append] returns. *)
Fixpoint append_comprehension (tokenized_sentences : list value)
    (sentences : list string) : list value * list value :=
  match sentences with
  | [] => (tokenized_sentences, [])
  | sentence :: rest =>
      let '(tokenized_sentences, returned) :=
        list_append tokenized_sentences (VStr sentence) in
      let '(tokenized_sentences, built) :=
        append_comprehension tokenized_sentences rest in
      (tokenized_sentences, returned :: built)
  end.

Definition tokenize_sentences (self : TokenizeSentence) (untokenized_string : value)
    : M (list value) :=
  assert_ (isinstance_str untokenized_string)
    "Incoming argument must be a string." ;;;
  match untokenized_string with
  | VStr text =>
      tokenizer <- open_pickle (tokenizer_path self) ;;
      pst <- _setup_tokenizer self tokenizer ;;
      let tokenized_sentences := [] in
      sentences <- sentences_from_text pst text true ;;
      ret (snd (append_comprehension tokenized_sentences sentences))
  | _ => raise (AssertionError "Incoming argument must be a string.")
  end.

(** ** Histories *)

(** What can happen to the process after the import: the three entry
    points of the module are called, with results the caller may discard,
    and the surroundings change the file store. *)
Inductive call : Type :=
| New (language : string)
| Tokenize (self : TokenizeSentence) (untokenized_string : value)
| OpenPickle (path : string)
| Surroundings (files : dict pickle_outcome).

Definition set_fs (files : dict pickle_outcome) (w : world) : world :=
  {| HOME := HOME w; fs := files; io_log := io_log w;
     g_PUNCTUATION := g_PUNCTUATION w;
     g_PunktLanguageVars := g_PunktLanguageVars w |}.

Definition exec (c : call) (w : world) : world :=
  match c with
  | New language => snd (__init__ language w)
  | Tokenize self untokenized_string =>
      snd (tokenize_sentences self untokenized_string w)
  | OpenPickle path => snd (open_pickle path w)
  | Surroundings files => set_fs files w
  end.

Definition run (calls : list call) (w : world) : world :=
  fold_left (fun w c => exec c w) calls w.

(** The path of the model file of a language: what
    [_setup_language_variables] builds from the language, [HOME] and the
    file name of the table. *)
Definition model_path (home lang file : string) : string :=
  os_path_join
    (os_path_expanduser home
       (os_path_join "~/cltk_data"
          [lang; "trained_model/cltk_linguistic_data/tokenizers/sentence"]))
    [file].

(** ** Vocabulary of the statements *)

(** [preserved w w']: everything but the I/O log and the class attributes
    of [PunktLanguageVars] is in [w'] as it was in [w]. *)
Definition preserved (w w' : world) : Prop :=
  HOME w' = HOME w /\ fs w' = fs w /\ g_PUNCTUATION w' = g_PUNCTUATION w.

Definition emits (evs : list io_event) (w : world) : world :=
  fold_left (fun w ev => emit ev w) evs w.

Definition no_such_file (path : string) : string :=
  "[Errno 2] No such file or directory: '" ++ path ++ "'".

(** The result and the I/O of [open_pickle], by what the store holds at
    the path. *)
Definition open_pickle_case (path : string) (f : option pickle_outcome)
    : result pyobj * list io_event :=
  match f with
  | None => (Raise (SystemExit 1), [Open path; Print (no_such_file path)])
  | Some (Denied msg) => (Raise (SystemExit 1), [Open path; Print msg])
  | Some (Loads o) => (Return o, [Open path; Load path; Close path])
  | Some (Fails e) =>
      if is_PickleError e then
        (Raise (SystemExit 1), [Open path; Load path; Print (exn_str e); Close path])
      else if is_IOError e then
        (Raise (SystemExit 1), [Open path; Load path; Close path; Print (exn_str e)])
      else (Raise e, [Open path; Load path; Close path])
  end.

(** The punctuation of an instance, as it is written to the class. *)
Definition own_vars (self : TokenizeSentence) : PunktLanguageVars.t :=
  {| PunktLanguageVars.sent_end_chars := external_punctuation self;
     PunktLanguageVars.internal_punctuation := internal_punctuation self |}.

(** The unpickled tokenizer after [_setup_tokenizer] has set its flags. *)
Definition flagged (t : trainer) : trainer :=
  {| INCLUDE_ALL_COLLOCS := true; INCLUDE_ABBREV_COLLOCS := true; data := data t |}.

(** The sentences Punkt finds for an instance, a tokenizer and a text. *)
Definition detected (self : TokenizeSentence) (t : trainer) (text : string)
    : list string :=
  punkt_sentences_from_text (get_params (flagged t)) (own_vars self) text true.

Definition no_attribute (v : value) : string :=
  "'" ++ type_name v ++ "' object has no attribute 'INCLUDE_ALL_COLLOCS'".

Definition no_get_params (class_name : string) : string :=
  "'" ++ class_name ++ "' object has no attribute 'get_params'".

Definition tokenize_case (self : TokenizeSentence) (text : string)
    (loaded : result pyobj) : result (list value) :=
  match loaded with
  | Raise e => Raise e
  | Return (Plain v) => Raise (AttributeError (no_attribute v))
  | Return (Other c) => Raise (AttributeError (no_get_params c))
  | Return (Trainer t) => Return (repeat VNone (length (detected self t text)))
  end.

(** The instance the constructor builds from a table entry. *)
Definition instance_of (home lang : string) (entry : profile) : TokenizeSentence :=
  {| language := lang;
     internal_punctuation := internal entry;
     external_punctuation := external entry;
     tokenizer_path := model_path home lang (file entry) |}.

(** Where the model file of a language is looked for: under
    [cltk_data] in the home directory. *)
Definition cltk_data_path (home lang : string) : string :=
  rstrip_slash home ++ "/cltk_data/" ++ lang
  ++ "/trained_model/cltk_linguistic_data/tokenizers/sentence/"
  ++ lang ++ ".pickle".

End Module_sentence.

(** ** A Punkt to run the module with *)

Module SpecPunkt.

(** Modelled from the spec: NLTK's Punkt tokenizer is a third-party
    library and no part of the repository.  This is the Boundary Resolver
    of section 4.3, steps 2 to 5: every external character that is not an
    internal one is a candidate; a candidate after a known abbreviation is
    no boundary unless a known sentence starter follows; with realignment
    a closing quotation mark or bracket right after a boundary stays with
    the sentence it closes; sentences are trimmed, and an empty rest is no
    sentence. *)
Record model : Type := {
  abbreviations : list string;
  sentence_starters : list string
}.

Definition is_closing (c : ascii) : bool :=
  let n := nat_of_ascii c in
  Nat.eqb n 34 || Nat.eqb n 39 || Nat.eqb n 41 || Nat.eqb n 93.

Fixpoint lstrip (l : list ascii) : list ascii :=
  match l with
  | c :: r => if is_space c then lstrip r else l
  | [] => []
  end.

Definition strip (l : list ascii) : list ascii := rev (lstrip (rev (lstrip l))).

(** The word that follows a candidate: closing punctuation and white
    space are passed over, then the characters up to the next white
    space. *)
Fixpoint next_word (started : bool) (l : list ascii) : list ascii :=
  match l with
  | [] => []
  | c :: r =>
      if is_space c then (if started then [] else next_word false r)
      else if negb started && is_closing c then next_word false r
      else c :: next_word true r
  end.

Record scan : Type := {
  done : list (list ascii);   (* confirmed sentences, the last one first *)
  cur : list ascii;           (* the sentence being read, reversed *)
  tok : list ascii;           (* the token being read, reversed *)
  fresh : bool                (* a boundary was confirmed just before *)
}.

Definition candidate (v : PunktLanguageVars.t) (c : ascii) : bool :=
  mem_str (String c EmptyString) (PunktLanguageVars.sent_end_chars v)
  && negb (mem_str (String c EmptyString) (PunktLanguageVars.internal_punctuation v)).

Definition boundary (m : model) (s : scan) (rest : list ascii) : bool :=
  negb (mem_str (lower (string_of_list_ascii (rev (tok s)))) (abbreviations m))
  || mem_str (lower (string_of_list_ascii (next_word false rest))) (sentence_starters m).

Definition attach (c : ascii) (sentences : list (list ascii)) : list (list ascii) :=
  match sentences with
  | last :: before => (last ++ [c])%list :: before
  | [] => []
  end.

Definition step (m : model) (v : PunktLanguageVars.t) (realign : bool)
    (s : scan) (c : ascii) (rest : list ascii) : scan :=
  if fresh s && realign && is_closing c then
    {| done := attach c (done s); cur := cur s; tok := tok s; fresh := true |}
  else if candidate v c then
    if boundary m s rest then
      {| done := strip (rev (c :: cur s)) :: done s; cur := []; tok := [];
         fresh := true |}
    else {| done := done s; cur := c :: cur s; tok := c :: tok s; fresh := false |}
  else if is_space c then
    {| done := done s; cur := c :: cur s; tok := []; fresh := false |}
  else {| done := done s; cur := c :: cur s; tok := c :: tok s; fresh := false |}.

Fixpoint scan_text (m : model) (v : PunktLanguageVars.t) (realign : bool)
    (s : scan) (text : list ascii) : scan :=
  match text with
  | [] => s
  | c :: rest => scan_text m v realign (step m v realign s c rest) rest
  end.

Definition sentences (m : model) (v : PunktLanguageVars.t) (text : string)
    (realign : bool) : list string :=
  let s := scan_text m v realign
             {| done := []; cur := []; tok := []; fresh := false |}
             (list_ascii_of_string text) in
  let last := strip (rev (cur s)) in
  map string_of_list_ascii
    (rev (match last with [] => done s | _ => last :: done s end)).

Definition punkt : Punkt :=
  {| trainer_data := model;
     PunktParameters := model;
     punkt_get_params := fun _ _ m => m;
     punkt_sentences_from_text := sentences |}.

End SpecPunkt.

(** ** Sample worlds *)

Module Sample.

#[local] Existing Instance SpecPunkt.punkt.

Definition latin_model : SpecPunkt.model :=
  {| SpecPunkt.abbreviations := ["cn"; "m"; "q"];
     SpecPunkt.sentence_starters := [] |}.

Definition greek_model : SpecPunkt.model :=
  {| SpecPunkt.abbreviations := []; SpecPunkt.sentence_starters := [] |}.

Definition tokenizer (m : SpecPunkt.model) : trainer :=
  {| INCLUDE_ALL_COLLOCS := false;
     INCLUDE_ABBREV_COLLOCS := false;
     data := m : trainer_data |}.

Definition pickled (m : SpecPunkt.model) : pickle_outcome :=
  Loads (Trainer (tokenizer m)).

Definition latin_pickle : string :=
  "/home/user/cltk_data/latin/trained_model/cltk_linguistic_data/tokenizers/sentence/latin.pickle".

Definition greek_pickle : string :=
  "/home/user/cltk_data/greek/trained_model/cltk_linguistic_data/tokenizers/sentence/greek.pickle".

(** Both models installed. *)
Definition installed : world :=
  module_load "/home/user"
    [ (latin_pickle, pickled latin_model); (greek_pickle, pickled greek_model) ].

(** No model installed. *)
Definition bare : world := module_load "/home/user" [].

(** The Latin model is a file that [pickle.load] rejects. *)
Definition damaged : world :=
  module_load "/home/user"
    [ (latin_pickle, Fails (PickleError "invalid load key, 'x'.")) ].

Definition latin : TokenizeSentence :=
  {| language := "latin";
     internal_punctuation := [","; ";"];
     external_punctuation := ["."; "?"; ":"];
     tokenizer_path := latin_pickle |}.

Definition greek : TokenizeSentence :=
  {| language := "greek";
     internal_punctuation := [","; "·"];
     external_punctuation := ["."; ";"];
     tokenizer_path := greek_pickle |}.

Definition gallia : string :=
  "Gallia est omnis divisa in partes tres: quarum unam incolunt Belgae.".

Definition veni : string := "Veni. Vidi. Vici.".

End Sample.


(** * Properties *)

Create HintDb frame.

Section Properties.

Context {P : Punkt}.

(** ** The state a call leaves *)

Lemma preserved_refl w : preserved w w.
Proof. repeat split. Qed.

Lemma preserved_trans w1 w2 w3 :
  preserved w1 w2 -> preserved w2 w3 -> preserved w1 w3.
Proof.
  intros (h1 & f1 & p1) (h2 & f2 & p2).
  repeat split; congruence.
Qed.

Lemma preserved_emit ev w : preserved w (emit ev w).
Proof. repeat split. Qed.

Lemma preserved_set_vars v w : preserved w (set_PunktLanguageVars v w).
Proof. repeat split. Qed.

#[local] Hint Resolve preserved_refl preserved_emit preserved_set_vars : frame.

(** ** [open_pickle], case by case *)

Lemma emits_log evs w : io_log (emits evs w) = (io_log w ++ evs)%list.
Proof.
  revert w; induction evs as [|ev evs IH]; intros w; simpl.
  - now rewrite app_nil_r.
  - rewrite IH. simpl. now rewrite <- app_assoc.
Qed.

Lemma emits_preserved evs w : preserved w (emits evs w).
Proof.
  revert w; induction evs as [|ev evs IH]; intros w; simpl; auto with frame.
  eapply preserved_trans; [apply preserved_emit | apply IH].
Qed.

Lemma emits_vars evs w : g_PunktLanguageVars (emits evs w) = g_PunktLanguageVars w.
Proof.
  revert w; induction evs as [|ev evs IH]; intros w; simpl; auto.
  now rewrite IH.
Qed.

Lemma open_pickle_eq path w :
  open_pickle path w =
  (fst (open_pickle_case path (dict_get (fs w) path)),
   emits (snd (open_pickle_case path (dict_get (fs w) path))) w).
Proof.
  unfold open_pickle, open_pickle_case, try_except, with_open, bind, open_rb,
    try_finally, pickle_load, print, sys_exit, modify, raise, no_such_file.
  destruct (dict_get (fs w) path) as [[o|e|msg]|]; simpl; try reflexivity.
  destruct e; reflexivity.
Qed.

Lemma open_pickle_preserved path w : preserved w (snd (open_pickle path w)).
Proof. rewrite open_pickle_eq. simpl. apply emits_preserved. Qed.

Lemma open_pickle_vars path w :
  g_PunktLanguageVars (snd (open_pickle path w)) = g_PunktLanguageVars w.
Proof. rewrite open_pickle_eq. simpl. apply emits_vars. Qed.

(** ** The list comprehension *)

Lemma append_comprehension_eq sentences : forall tokenized_sentences,
  append_comprehension tokenized_sentences sentences =
  ((tokenized_sentences ++ map VStr sentences)%list,
   repeat VNone (length sentences)).
Proof.
  induction sentences as [|s rest IH]; intros acc; simpl.
  - now rewrite app_nil_r.
  - rewrite IH. now rewrite <- app_assoc.
Qed.

(** ** [tokenize_sentences], case by case *)

Lemma _setup_tokenizer_eq self tokenizer w :
  _setup_tokenizer self tokenizer w =
  (match tokenizer with
   | Plain v => Raise (AttributeError (no_attribute v))
   | Other c => Raise (AttributeError (no_get_params c))
   | Trainer t => Return {| _params := get_params (flagged t) |}
   end,
   set_PunktLanguageVars (own_vars self) w).
Proof.
  unfold _setup_tokenizer, bind, modify, raise, ret, set_PunktLanguageVars,
    own_vars, no_attribute, no_get_params, flagged; simpl.
  destruct tokenizer; reflexivity.
Qed.

Lemma tokenize_sentences_eq self text w :
  let c := open_pickle_case (tokenizer_path self)
             (dict_get (fs w) (tokenizer_path self)) in
  tokenize_sentences self (VStr text) w =
  (tokenize_case self text (fst c),
   match fst c with
   | Raise _ => emits (snd c) w
   | Return _ => set_PunktLanguageVars (own_vars self) (emits (snd c) w)
   end).
Proof.
  intros c. unfold tokenize_sentences, assert_. simpl.
  unfold bind at 1. unfold ret at 1.
  unfold bind at 1. rewrite open_pickle_eq. fold c.
  destruct (fst c) as [o|e]; simpl; [|reflexivity].
  unfold bind at 1. rewrite _setup_tokenizer_eq.
  destruct o as [t|v|cls]; simpl; [|reflexivity|reflexivity].
  unfold bind, sentences_from_text, gets, ret; simpl.
  rewrite append_comprehension_eq. reflexivity.
Qed.

Lemma tokenize_sentences_not_str self v w :
  isinstance_str v = false ->
  tokenize_sentences self v w =
  (Raise (AssertionError "Incoming argument must be a string."), w).
Proof. destruct v; simpl; intros H; try discriminate; reflexivity. Qed.

(** ** The constructor, case by case *)

Lemma mem_keys_get {V : Type} (d : dict V) (k : string) :
  mem_str k (dict_keys d) = match dict_get d k with Some _ => true | None => false end.
Proof.
  induction d as [|[k' v] d IH]; simpl; [reflexivity|].
  rewrite (String.eqb_sym k k').
  destruct (String.eqb k' k); simpl; [reflexivity | exact IH].
Qed.

Lemma _setup_language_variables_eq lang w :
  _setup_language_variables lang w =
  match dict_get (g_PUNCTUATION w) lang with
  | None =>
      (Raise (AssertionError "Sentence tokenizer not available for language."), w)
  | Some entry =>
      let p := model_path (HOME w) lang (file entry) in
      (match dict_get (fs w) p with
       | None => Raise (AssertionError "CLTK linguistics data not available.")
       | Some _ => Return (internal entry, external entry, p)
       end,
       emit (IsFile p) w)
  end.
Proof.
  unfold _setup_language_variables, bind, gets, assert_, dict_item; simpl.
  rewrite mem_keys_get.
  destruct (dict_get (g_PUNCTUATION w) lang) as [entry|]; simpl; [|reflexivity].
  unfold os_path_isfile, model_path, ret, raise; simpl.
  destruct (dict_get (fs w) _); reflexivity.
Qed.

Lemma __init___eq language w :
  __init__ language w =
  match dict_get (g_PUNCTUATION w) (lower language) with
  | None =>
      (Raise (AssertionError "Sentence tokenizer not available for language."), w)
  | Some entry =>
      let p := model_path (HOME w) (lower language) (file entry) in
      (match dict_get (fs w) p with
       | None => Raise (AssertionError "CLTK linguistics data not available.")
       | Some _ => Return (instance_of (HOME w) (lower language) entry)
       end,
       emit (IsFile p) w)
  end.
Proof.
  unfold __init__, bind. rewrite _setup_language_variables_eq.
  destruct (dict_get (g_PUNCTUATION w) (lower language)) as [entry|]; [|reflexivity].
  simpl. destruct (dict_get (fs w) _); reflexivity.
Qed.

Lemma __init___preserved language w : preserved w (snd (__init__ language w)).
Proof.
  rewrite __init___eq.
  destruct (dict_get (g_PUNCTUATION w) (lower language)); simpl; auto with frame.
Qed.

Lemma __init___vars language w :
  g_PunktLanguageVars (snd (__init__ language w)) = g_PunktLanguageVars w.
Proof.
  rewrite __init___eq.
  destruct (dict_get (g_PUNCTUATION w) (lower language)); reflexivity.
Qed.

Lemma tokenize_sentences_preserved self v w :
  preserved w (snd (tokenize_sentences self v w)).
Proof.
  destruct (isinstance_str v) eqn:Hv.
  - destruct v; try discriminate.
    rewrite tokenize_sentences_eq. simpl.
    destruct (fst _); [eapply preserved_trans; [apply emits_preserved|] |];
      auto using emits_preserved with frame.
  - rewrite tokenize_sentences_not_str by assumption. apply preserved_refl.
Qed.

Lemma exec_registry c w : g_PUNCTUATION (exec c w) = g_PUNCTUATION w.
Proof.
  destruct c as [language|self v|path|files]; simpl.
  - apply __init___preserved.
  - apply tokenize_sentences_preserved.
  - apply open_pickle_preserved.
  - reflexivity.
Qed.

Lemma run_registry calls : forall w, g_PUNCTUATION (run calls w) = g_PUNCTUATION w.
Proof.
  induction calls as [|c calls IH]; intros w; [reflexivity|].
  change (run (c :: calls) w) with (run calls (exec c w)).
  rewrite IH. apply exec_registry.
Qed.

(** ** The return value *)

(** C10: for every string on which [tokenize_sentences] succeeds, the
    model file held a tokenizer and the returned list is one [None] for
    each sentence Punkt detected: every element is [None], the list has
    the length of the sentence list, and no sentence text is in it. *)
Theorem tokenize_sentences_returns_None self text w r w' :
  tokenize_sentences self (VStr text) w = (Return r, w') ->
  exists t,
    dict_get (fs w) (tokenizer_path self) = Some (Loads (Trainer t)) /\
    r = repeat VNone (length (detected self t text)) /\
    Forall (fun x => x = VNone) r /\
    length r = length (detected self t text) /\
    forall sentence, ~ In (VStr sentence) r.
Proof.
  rewrite tokenize_sentences_eq. cbv zeta.
  destruct (dict_get (fs w) (tokenizer_path self)) as [[[t|v|c]|e|msg]|] eqn:Hf;
    simpl; try discriminate.
  - intros H. inversion H; subst r. exists t.
    split; [reflexivity|]. split; [reflexivity|].
    split; [|split].
    + apply Forall_forall. intros x Hx. now apply repeat_spec in Hx.
    + apply repeat_length.
    + intros sentence Hin. apply repeat_spec in Hin. discriminate.
  - destruct (is_PickleError e); [discriminate|].
    destruct (is_IOError e); discriminate.
Qed.

(** ** Failures *)

(** C5: a language that, lowered, is no key of the table makes the
    constructor fail with the assertion on the language, and the world is
    the one before the call: no file was looked at, nothing was logged. *)
Theorem unsupported_language_fails_first language w :
  mem_str (lower language) (dict_keys (g_PUNCTUATION w)) = false ->
  __init__ language w =
  (Raise (AssertionError "Sentence tokenizer not available for language."), w).
Proof.
  rewrite mem_keys_get, __init___eq.
  destruct (dict_get (g_PUNCTUATION w) (lower language)); [discriminate|reflexivity].
Qed.

(** C7, amended: an argument that is not a string makes
    [tokenize_sentences] fail at once, before any I/O and with the world
    unchanged, with an [AssertionError] that carries the message
    ['Incoming argument must be a string.']; its type is the type of the
    constructor's assertion failures, from which only the message tells
    it apart. *)
Theorem non_string_argument_fails self v w :
  isinstance_str v = false ->
  tokenize_sentences self v w =
  (Raise (AssertionError "Incoming argument must be a string."), w)
  /\ forall language e,
       fst (__init__ language w) = Raise e ->
       type_of_exn e = type_of_exn (AssertionError "Incoming argument must be a string.").
Proof.
  intros Hv. split.
  - destruct v; simpl in Hv; try discriminate; reflexivity.
  - intros language e. rewrite __init___eq.
    destruct (dict_get (g_PUNCTUATION w) (lower language)) as [entry|]; simpl.
    + destruct (dict_get (fs w) _); intros H; inversion H; reflexivity.
    + intros H; inversion H; reflexivity.
Qed.

(** C6, amended: [open_pickle] prints the error and raises
    [SystemExit(1)] both when the file is absent and when [pickle.load]
    raises a [PickleError], so the exception does not tell the two apart;
    it returns an object exactly when the file is there and [pickle.load]
    returned that object, so nothing partial is returned.  At construction
    an absent file of a language of the table is an [AssertionError] with
    the message ['CLTK linguistics data not available.']. *)
Theorem open_pickle_outcomes path w :
  (dict_get (fs w) path = None ->
     fst (open_pickle path w) = Raise (SystemExit 1) /\
     In (Print (no_such_file path)) (io_log (snd (open_pickle path w))))
  /\ (forall msg, dict_get (fs w) path = Some (Fails (PickleError msg)) ->
        fst (open_pickle path w) = Raise (SystemExit 1) /\
        In (Print msg) (io_log (snd (open_pickle path w))))
  /\ (forall o, fst (open_pickle path w) = Return o <->
                dict_get (fs w) path = Some (Loads o))
  /\ (forall language entry,
        dict_get (g_PUNCTUATION w) (lower language) = Some entry ->
        dict_get (fs w) (model_path (HOME w) (lower language) (file entry)) = None ->
        fst (__init__ language w) =
        Raise (AssertionError "CLTK linguistics data not available.")).
Proof.
  rewrite open_pickle_eq. cbn [fst snd]. rewrite emits_log.
  split; [|split; [|split]].
  - intros H. rewrite H. split; [reflexivity|].
    apply in_or_app. right. simpl. auto.
  - intros msg H. rewrite H. split; [reflexivity|].
    apply in_or_app. right. simpl. auto.
  - intros o. split.
    + destruct (dict_get (fs w) path) as [[o'|e|msg]|]; simpl; try discriminate.
      * intros H; inversion H; reflexivity.
      * destruct (is_PickleError e); [discriminate|].
        destruct (is_IOError e); discriminate.
    + intros H. rewrite H. reflexivity.
  - intros language entry H H0. rewrite __init___eq, H. cbv zeta.
    rewrite H0. reflexivity.
Qed.

(** ** The empty string *)

(** C8: for a language of the table whose model file holds a tokenizer,
    and a Punkt that finds no sentence in the empty text, the constructor
    succeeds and [tokenize_sentences] applied to the empty string returns
    the empty list; it does not raise. *)
Theorem tokenize_empty_string language entry t w :
  dict_get (g_PUNCTUATION w) (lower language) = Some entry ->
  dict_get (fs w) (model_path (HOME w) (lower language) (file entry)) =
    Some (Loads (Trainer t)) ->
  (forall params vars, punkt_sentences_from_text params vars "" true = []) ->
  exists self w1 w2,
    __init__ language w = (Return self, w1) /\
    tokenize_sentences self (VStr "") w1 = (Return [], w2).
Proof.
  intros Hentry Hfile Hempty.
  exists (instance_of (HOME w) (lower language) entry).
  eexists. eexists. split.
  - rewrite __init___eq, Hentry. cbv zeta. rewrite Hfile. reflexivity.
  - rewrite tokenize_sentences_eq. cbn [fs emit tokenizer_path instance_of].
    rewrite Hfile. cbn [open_pickle_case fst snd tokenize_case].
    unfold detected. rewrite Hempty. reflexivity.
Qed.

(** ** The table *)

Lemma PUNCTUATION_entries lang entry :
  dict_get PUNCTUATION lang = Some entry ->
  entry = {| external := ["."; ";"]; internal := [","; "·"];
             file := "greek.pickle" |}
  \/ entry = {| external := ["."; "?"; ":"]; internal := [","; ";"];
                file := "latin.pickle" |}.
Proof.
  unfold PUNCTUATION, dict_get.
  destruct (String.eqb "greek" lang); [intros H; inversion H; auto|].
  destruct (String.eqb "latin" lang); [intros H; inversion H; auto|].
  discriminate.
Qed.

(** C9: whatever the history of the process after the import (calls of
    the constructor, of [tokenize_sentences] and of [open_pickle] with any
    arguments, changes of the file store), the table is the one the module
    defines, and in each of its entries no external character is an
    internal one. *)
Theorem PUNCTUATION_constant_and_disjoint home files calls :
  let w := run calls (module_load home files) in
  g_PUNCTUATION w = PUNCTUATION /\
  (forall lang entry, dict_get (g_PUNCTUATION w) lang = Some entry ->
     disjoint_chars entry = true /\
     forall c, In c (external entry) -> ~ In c (internal entry)).
Proof.
  cbv zeta. rewrite run_registry. cbn [module_load g_PUNCTUATION].
  split; [reflexivity|].
  intros lang entry H.
  destruct (PUNCTUATION_entries _ _ H) as [-> | ->].
  - split; [reflexivity|]. cbn [external internal In].
    intros c [<-|[<-|[]]] [E|[E|[]]]; discriminate.
  - split; [reflexivity|]. cbn [external internal In].
    intros c [<-|[<-|[<-|[]]]] [E|[E|[]]]; discriminate.
Qed.

(** ** What a call depends on, and what it shares *)

Lemma tokenize_sentences_result self v w :
  fst (tokenize_sentences self v w) =
  match v with
  | VStr text =>
      tokenize_case self text
        (fst (open_pickle_case (tokenizer_path self)
                (dict_get (fs w) (tokenizer_path self))))
  | _ => Raise (AssertionError "Incoming argument must be a string.")
  end.
Proof.
  destruct v; try reflexivity.
  rewrite tokenize_sentences_eq. reflexivity.
Qed.

(** C3, amended: the result of [tokenize_sentences] is a function of the
    instance, the content of its model file and the argument: two worlds
    that agree on that file give the same result, whatever the class
    attributes of [PunktLanguageVars] hold and whatever calls came before;
    a call on any instance and a construction for any language in between
    do not change it.  The class attributes are shared all the same: a
    call on a string whose model file loads leaves the punctuation of its
    own instance in them. *)
Theorem tokenize_sentences_deterministic self v w1 w2 :
  dict_get (fs w1) (tokenizer_path self) = dict_get (fs w2) (tokenizer_path self) ->
  fst (tokenize_sentences self v w1) = fst (tokenize_sentences self v w2)
  /\ (forall other arg,
        fst (tokenize_sentences self v (snd (tokenize_sentences other arg w1))) =
        fst (tokenize_sentences self v w1))
  /\ (forall language,
        fst (tokenize_sentences self v (snd (__init__ language w1))) =
        fst (tokenize_sentences self v w1))
  /\ (forall text o,
        fst (open_pickle (tokenizer_path self) w1) = Return o ->
        g_PunktLanguageVars (snd (tokenize_sentences self (VStr text) w1)) =
        {| PunktLanguageVars.sent_end_chars := external_punctuation self;
           PunktLanguageVars.internal_punctuation := internal_punctuation self |}).
Proof.
  intros Hfile. split; [|split; [|split]].
  - rewrite !tokenize_sentences_result, Hfile. reflexivity.
  - intros other arg. rewrite !tokenize_sentences_result.
    destruct (tokenize_sentences_preserved other arg w1) as (_ & -> & _).
    reflexivity.
  - intros language. rewrite !tokenize_sentences_result.
    destruct (__init___preserved language w1) as (_ & -> & _).
    reflexivity.
  - intros text o. rewrite open_pickle_eq, tokenize_sentences_eq.
    cbn [fst snd]. intros ->. reflexivity.
Qed.

(** ** Input and output *)

(** C4, amended: the constructor never opens or loads the model file:
    for a language that is no key of the table it logs nothing, for a key
    it logs the one test [os.path.isfile] of the model file, which is the
    file of the instance it returns.  Every call of [tokenize_sentences]
    on a string reads the model file of the instance once: its log is
    the opening, then, when the file opens, exactly one load and the
    closing, with the printed message of a failure; when the file is not
    there or refuses to open there is the opening and the message only.
    A call on another value leaves the world as it is. *)
Theorem model_is_read_by_every_call self text w :
  (forall language,
     io_log (snd (__init__ language w)) =
     match dict_get (g_PUNCTUATION w) (lower language) with
     | None => io_log w
     | Some entry =>
         (io_log w ++
          [IsFile (model_path (HOME w) (lower language) (file entry))])%list
     end)
  /\ (forall language self',
        fst (__init__ language w) = Return self' ->
        io_log (snd (__init__ language w)) =
        (io_log w ++ [IsFile (tokenizer_path self')])%list)
  /\ io_log (snd (tokenize_sentences self (VStr text) w)) =
     (io_log w ++
      match dict_get (fs w) (tokenizer_path self) with
      | None =>
          [Open (tokenizer_path self);
           Print (no_such_file (tokenizer_path self))]
      | Some (Denied msg) => [Open (tokenizer_path self); Print msg]
      | Some (Loads _) =>
          [Open (tokenizer_path self); Load (tokenizer_path self);
           Close (tokenizer_path self)]
      | Some (Fails e) =>
          if is_PickleError e then
            [Open (tokenizer_path self); Load (tokenizer_path self);
             Print (exn_str e); Close (tokenizer_path self)]
          else if is_IOError e then
            [Open (tokenizer_path self); Load (tokenizer_path self);
             Close (tokenizer_path self); Print (exn_str e)]
          else
            [Open (tokenizer_path self); Load (tokenizer_path self);
             Close (tokenizer_path self)]
      end)%list
  /\ (forall v, isinstance_str v = false ->
                snd (tokenize_sentences self v w) = w).
Proof.
  split; [|split; [|split]].
  - intros language. rewrite __init___eq.
    destruct (dict_get (g_PUNCTUATION w) (lower language)) as [entry|];
      reflexivity.
  - intros language self'. rewrite __init___eq.
    destruct (dict_get (g_PUNCTUATION w) (lower language)) as [entry|];
      [|discriminate].
    cbv zeta. cbn [fst snd].
    destruct (dict_get (fs w) _); [|discriminate].
    intros H. inversion H. reflexivity.
  - rewrite tokenize_sentences_eq. cbv zeta. cbn [snd].
    destruct (dict_get (fs w) (tokenizer_path self)) as [[o|e|msg]|];
      cbn [open_pickle_case fst snd].
    + cbn [io_log set_PunktLanguageVars]. apply emits_log.
    + destruct (is_PickleError e); [|destruct (is_IOError e)];
        cbn [fst snd]; apply emits_log.
    + apply emits_log.
    + apply emits_log.
  - intros v Hv. rewrite tokenize_sentences_not_str by assumption. reflexivity.
Qed.

End Properties.

(** * The module at work *)

Section Runs.

#[local] Existing Instance SpecPunkt.punkt.

Import Sample.

(** ** The sentences are not returned *)

(** C1: [TokenizeSentence('latin').tokenize_sentences] on Caesar's
    opening sentence, with the Latin model installed: Punkt finds the two
    sentences, the local list [tokenized_sentences] holds them, and the
    call returns [[None, None]], not the two strings. *)
Theorem tokenize_sentences_gallia :
  fst (__init__ "latin" installed) = Return latin /\
  detected latin (tokenizer latin_model) gallia =
    ["Gallia est omnis divisa in partes tres:"; "quarum unam incolunt Belgae."] /\
  fst (append_comprehension [] (detected latin (tokenizer latin_model) gallia)) =
    [VStr "Gallia est omnis divisa in partes tres:";
     VStr "quarum unam incolunt Belgae."] /\
  fst (tokenize_sentences latin (VStr gallia) (snd (__init__ "latin" installed))) =
    Return [VNone; VNone] /\
  [VNone; VNone] <>
    [VStr "Gallia est omnis divisa in partes tres:";
     VStr "quarum unam incolunt Belgae."].
Proof.
  split; [vm_compute; reflexivity|].
  split; [vm_compute; reflexivity|].
  split; [vm_compute; reflexivity|].
  split; [vm_compute; reflexivity|].
  discriminate.
Qed.

(** C2: on ["Veni. Vidi. Vici."] Punkt finds three sentences which, in
    order and with the white space between them, make up the text; the
    call returns [[None, None, None]], which is the image of no list of
    strings: there are no spans to put together. *)
Theorem tokenize_sentences_veni :
  rebuilds veni (detected latin (tokenizer latin_model) veni) = true /\
  fst (tokenize_sentences latin (VStr veni) installed) =
    Return [VNone; VNone; VNone] /\
  (forall spans, [VNone; VNone; VNone] <> map VStr spans).
Proof.
  split; [vm_compute; reflexivity|].
  split; [vm_compute; reflexivity|].
  intros [|span spans]; discriminate.
Qed.

(** [tokenize_sentences_returns_None] at Caesar's sentence. *)
Lemma tokenize_sentences_returns_None_witness :
  exists t,
    dict_get (fs installed) (tokenizer_path latin) = Some (Loads (Trainer t)) /\
    [VNone; VNone] = repeat VNone (length (detected latin t gallia)) /\
    Forall (fun x => x = VNone) [VNone; VNone] /\
    length [VNone; VNone] = length (detected latin t gallia) /\
    forall sentence, ~ In (VStr sentence) [VNone; VNone].
Proof.
  apply (tokenize_sentences_returns_None latin gallia installed
           [VNone; VNone]
           (snd (tokenize_sentences latin (VStr gallia) installed))).
  reflexivity.
Defined.

(** ** Failures *)

(** [unsupported_language_fails_first] at ['Klingon'], no model
    installed. *)
Lemma unsupported_language_fails_first_witness :
  __init__ "Klingon" bare =
  (Raise (AssertionError "Sentence tokenizer not available for language."), bare).
Proof.
  apply (unsupported_language_fails_first "Klingon" bare).
  reflexivity.
Defined.

(** C7: the error for an argument that is no string and the error for
    a language that is not supported are two errors of one type. *)
Lemma invalid_input_error_shares_its_type :
  exists e1 e2,
    fst (tokenize_sentences latin (VInt 3) installed) = Raise e1 /\
    fst (__init__ "klingon" installed) = Raise e2 /\
    e1 <> e2 /\
    type_of_exn e1 = type_of_exn e2.
Proof.
  eexists. eexists.
  split; [reflexivity|]. split; [reflexivity|].
  split; [discriminate | reflexivity].
Qed.

(** [non_string_argument_fails] at the integer 3. *)
Lemma non_string_argument_fails_witness :
  tokenize_sentences latin (VInt 3) installed =
  (Raise (AssertionError "Incoming argument must be a string."), installed)
  /\ forall language e,
       fst (__init__ language installed) = Raise e ->
       type_of_exn e = type_of_exn (AssertionError "Incoming argument must be a string.").
Proof.
  apply (non_string_argument_fails latin (VInt 3) installed).
  reflexivity.
Defined.

(** C6: with the model file absent and with a model file that
    [pickle.load] rejects, [open_pickle] raises the same exception, and so
    does [tokenize_sentences]. *)
Lemma absent_and_rejected_alike :
  fst (open_pickle latin_pickle bare) = Raise (SystemExit 1) /\
  fst (open_pickle latin_pickle damaged) = Raise (SystemExit 1) /\
  fst (tokenize_sentences latin (VStr gallia) bare) =
  fst (tokenize_sentences latin (VStr gallia) damaged).
Proof.
  split; [reflexivity|].
  split; reflexivity.
Qed.

(** [open_pickle_outcomes] at the Latin model file, absent. *)
Lemma open_pickle_outcomes_witness :
  fst (open_pickle latin_pickle bare) = Raise (SystemExit 1) /\
  In (Print (no_such_file latin_pickle)) (io_log (snd (open_pickle latin_pickle bare))).
Proof.
  apply (proj1 (open_pickle_outcomes latin_pickle bare)).
  reflexivity.
Defined.

(** ** The empty string *)

(** [tokenize_empty_string] at ['Latin'], both models installed. *)
Lemma tokenize_empty_string_witness :
  exists self w1 w2,
    __init__ "Latin" installed = (Return self, w1) /\
    tokenize_sentences self (VStr "") w1 = (Return [], w2).
Proof.
  apply (tokenize_empty_string "Latin"
           {| external := ["."; "?"; ":"]; internal := [","; ";"];
              file := "latin.pickle" |}
           (tokenizer latin_model) installed).
  - reflexivity.
  - reflexivity.
  - intros params vars. reflexivity.
Defined.

(** ** Shared state, input and output *)

(** C3: the class attributes of [PunktLanguageVars] are one object for
    the instances of all languages: a call on the Greek instance leaves the
    Greek punctuation in them, a call on the Latin instance after it
    replaces that by the Latin punctuation. *)
Lemma PunktLanguageVars_shared_between_languages :
  let w1 := snd (tokenize_sentences greek (VStr "") installed) in
  let w2 := snd (tokenize_sentences latin (VStr "") w1) in
  g_PunktLanguageVars w1 = own_vars greek /\
  g_PunktLanguageVars w2 = own_vars latin /\
  g_PunktLanguageVars w2 <> g_PunktLanguageVars w1.
Proof.
  cbv zeta.
  split; [vm_compute; reflexivity|].
  split; [vm_compute; reflexivity|].
  vm_compute. discriminate.
Qed.

(** [tokenize_sentences_deterministic] at the Latin instance, in the
    world after the import and in the world a Greek call has left. *)
Lemma tokenize_sentences_deterministic_witness :
  fst (tokenize_sentences latin (VStr gallia) installed) =
  fst (tokenize_sentences latin (VStr gallia)
         (snd (tokenize_sentences greek (VStr veni) installed))).
Proof.
  apply (proj1 (tokenize_sentences_deterministic latin (VStr gallia) installed
                  (snd (tokenize_sentences greek (VStr veni) installed))
                  ltac:(reflexivity))).
Defined.

(** C4: the constructor tests that the model file is there and does
    not load it; the call of [tokenize_sentences] that follows opens the
    file, loads it and closes it. *)
Lemma tokenize_sentences_reads_the_model :
  fst (__init__ "latin" installed) = Return latin /\
  io_log (snd (__init__ "latin" installed)) = [IsFile latin_pickle] /\
  io_log (snd (tokenize_sentences latin (VStr gallia)
                 (snd (__init__ "latin" installed)))) =
    [IsFile latin_pickle; Open latin_pickle; Load latin_pickle; Close latin_pickle] /\
  io_log (snd (tokenize_sentences latin (VStr gallia)
                 (snd (__init__ "latin" installed)))) <>
    io_log (snd (__init__ "latin" installed)).
Proof.
  split; [vm_compute; reflexivity|].
  split; [vm_compute; reflexivity|].
  split; [vm_compute; reflexivity|].
  vm_compute. discriminate.
Qed.

End Runs.

(** * Further properties of the module *)

Section Further.

Context {P : Punkt}.

(** ** Strings *)

Lemma lower_ascii_idempotent c : lower_ascii (lower_ascii c) = lower_ascii c.
Proof. destruct c as [[] [] [] [] [] [] [] []]; reflexivity. Qed.

Lemma lower_idempotent s : lower (lower s) = lower s.
Proof.
  induction s as [|c s IH]; simpl; [reflexivity|].
  now rewrite lower_ascii_idempotent, IH.
Qed.

Lemma append_assoc (a b c : string) : (a ++ b) ++ c = a ++ (b ++ c).
Proof. induction a as [|x a IH]; simpl; [reflexivity | now rewrite IH]. Qed.

Lemma eqb_append_cons_empty a c b : String.eqb (a ++ String c b) "" = false.
Proof. destruct a; reflexivity. Qed.

Lemma endswith_slash_append a c b :
  endswith_slash (a ++ String c b) = endswith_slash (String c b).
Proof.
  induction a as [|x a IH]; [reflexivity|].
  change ((String x a) ++ String c b) with (String x (a ++ String c b)).
  rewrite <- IH.
  destruct (a ++ String c b) eqn:E; [|reflexivity].
  destruct a; discriminate.
Qed.

Lemma model_path_greek home :
  model_path home "greek" "greek.pickle" = cltk_data_path home "greek".
Proof.
  unfold model_path, cltk_data_path.
  change (os_path_join "~/cltk_data"
            ["greek"; "trained_model/cltk_linguistic_data/tokenizers/sentence"])
    with "~/cltk_data/greek/trained_model/cltk_linguistic_data/tokenizers/sentence".
  unfold os_path_expanduser.
  cbn [find_slash Ascii.eqb Bool.eqb Nat.eqb drop].
  rewrite eqb_append_cons_empty.
  unfold os_path_join, fold_left, join_step.
  change (startswith "greek.pickle" "/") with false.
  rewrite eqb_append_cons_empty, endswith_slash_append.
  match goal with
  | |- context [endswith_slash ?x] => change (endswith_slash x) with false
  end.
  cbn [orb]. rewrite append_assoc. reflexivity.
Qed.

Lemma model_path_latin home :
  model_path home "latin" "latin.pickle" = cltk_data_path home "latin".
Proof.
  unfold model_path, cltk_data_path.
  change (os_path_join "~/cltk_data"
            ["latin"; "trained_model/cltk_linguistic_data/tokenizers/sentence"])
    with "~/cltk_data/latin/trained_model/cltk_linguistic_data/tokenizers/sentence".
  unfold os_path_expanduser.
  cbn [find_slash Ascii.eqb Bool.eqb Nat.eqb drop].
  rewrite eqb_append_cons_empty.
  unfold os_path_join, fold_left, join_step.
  change (startswith "latin.pickle" "/") with false.
  rewrite eqb_append_cons_empty, endswith_slash_append.
  match goal with
  | |- context [endswith_slash ?x] => change (endswith_slash x) with false
  end.
  cbn [orb]. rewrite append_assoc. reflexivity.
Qed.

(** ** The constructor on the module's table *)

Lemma PUNCTUATION_lookup lang entry :
  dict_get PUNCTUATION lang = Some entry ->
  (lang = "greek" /\ entry = {| external := ["."; ";"]; internal := [","; "·"];
                               file := "greek.pickle" |})
  \/ (lang = "latin" /\ entry = {| external := ["."; "?"; ":"];
                                  internal := [","; ";"];
                                  file := "latin.pickle" |}).
Proof.
  unfold PUNCTUATION, dict_get.
  destruct (String.eqb "greek" lang) eqn:Eg.
  - apply String.eqb_eq in Eg. intros H; inversion H; subst. left. split; reflexivity.
  - destruct (String.eqb "latin" lang) eqn:El; [|discriminate].
    apply String.eqb_eq in El. intros H; inversion H; subst. right. split; reflexivity.
Qed.

Lemma model_path_of_table home lang entry :
  dict_get PUNCTUATION lang = Some entry ->
  model_path home lang (file entry) = cltk_data_path home lang.
Proof.
  intros H. destruct (PUNCTUATION_lookup _ _ H) as [[-> ->] | [-> ->]].
  - apply model_path_greek.
  - apply model_path_latin.
Qed.

(** With the table of the module, the constructor returns an instance
    exactly when the lowered language is ['greek'] or ['latin'] and the
    store has a file at [<HOME>/cltk_data/<language>/trained_model/
    cltk_linguistic_data/tokenizers/sentence/<language>.pickle] ([HOME]
    without its trailing slashes); the instance then holds the lowered
    language, the punctuation of the table entry, internal and external
    not swapped, and that path. *)
Theorem constructor_on_module_table language w self :
  g_PUNCTUATION w = PUNCTUATION ->
  (fst (__init__ language w) = Return self <->
   exists entry,
     dict_get PUNCTUATION (lower language) = Some entry /\
     (lower language = "greek" \/ lower language = "latin") /\
     dict_get (fs w) (cltk_data_path (HOME w) (lower language)) <> None /\
     self = {| language := lower language;
               internal_punctuation := internal entry;
               external_punctuation := external entry;
               tokenizer_path := cltk_data_path (HOME w) (lower language) |}).
Proof.
  intros Htable. rewrite __init___eq, Htable.
  destruct (dict_get PUNCTUATION (lower language)) as [entry|] eqn:Hentry.
  - cbv zeta. cbn [fst]. rewrite (model_path_of_table _ _ _ Hentry).
    assert (Hlang : lower language = "greek" \/ lower language = "latin")
      by (destruct (PUNCTUATION_lookup _ _ Hentry) as [[-> _] | [-> _]]; auto).
    split.
    + destruct (dict_get (fs w) _) eqn:Hf; [|discriminate].
      intros H. inversion H. exists entry.
      split; [reflexivity|]. split; [exact Hlang|]. split; [congruence|].
      unfold instance_of. now rewrite (model_path_of_table _ _ _ Hentry).
    + intros (entry' & He & _ & Hf & ->). inversion He; subst entry'.
      destruct (dict_get (fs w) _); [|congruence].
      unfold instance_of. now rewrite (model_path_of_table _ _ _ Hentry).
  - cbn [fst]. split; [discriminate|].
    intros (entry' & He & _). discriminate.
Qed.

(** An instance can be built again from its own language: the language an
    instance holds is in lower case, and the constructor called with it,
    in the world the first construction left, returns the same instance. *)
Theorem constructor_round_trip name w self :
  fst (__init__ name w) = Return self ->
  language self = lower name /\
  lower (language self) = language self /\
  fst (__init__ (language self) (snd (__init__ name w))) = Return self.
Proof.
  rewrite __init___eq.
  destruct (dict_get (g_PUNCTUATION w) (lower name)) as [entry|] eqn:Hentry;
    [|discriminate].
  cbv zeta. cbn [fst snd].
  destruct (dict_get (fs w) _) eqn:Hf; [|discriminate].
  intros H. inversion H. cbn [language instance_of].
  split; [reflexivity|]. split; [apply lower_idempotent|].
  rewrite __init___eq. cbn [g_PUNCTUATION HOME fs emit].
  rewrite lower_idempotent, Hentry. cbv zeta. cbn [fst]. rewrite Hf. reflexivity.
Qed.

(** [_setup_language_variables] does not lower its argument: with the
    table of the module it rejects every name that is not in lower case,
    without looking at the store, although the constructor accepts such a
    name when its lowered form is a key. *)
Theorem _setup_language_variables_case_sensitive lang w :
  g_PUNCTUATION w = PUNCTUATION ->
  lower lang <> lang ->
  _setup_language_variables lang w =
  (Raise (AssertionError "Sentence tokenizer not available for language."), w).
Proof.
  intros Htable Hcase. rewrite _setup_language_variables_eq, Htable.
  destruct (dict_get PUNCTUATION lang) as [entry|] eqn:Hentry; [|reflexivity].
  exfalso. apply Hcase.
  destruct (PUNCTUATION_lookup _ _ Hentry) as [[-> _] | [-> _]]; reflexivity.
Qed.

(** ** [open_pickle]: what is caught, what is closed *)

(** An exception of [pickle.load] that is neither a [PickleError] nor an
    [IOError] (an [EOFError] on a truncated file, say) is not caught: it
    reaches the caller as it is, nothing is printed, and the file has
    been closed. *)
Theorem open_pickle_propagates path e w :
  dict_get (fs w) path = Some (Fails e) ->
  is_PickleError e = false ->
  is_IOError e = false ->
  fst (open_pickle path w) = Raise e /\
  io_log (snd (open_pickle path w)) =
    (io_log w ++ [Open path; Load path; Close path])%list.
Proof.
  intros Hf Hp Hi. rewrite open_pickle_eq, Hf. cbn [open_pickle_case].
  rewrite Hp, Hi. cbn [fst snd]. rewrite emits_log. split; reflexivity.
Qed.

(** Where the message is printed: a [PickleError] is handled inside the
    [with] block, so it is printed while the file is still open; an
    [IOError] raised by [pickle.load] is handled by the outer clause, so
    the file is closed first.  Both end in [SystemExit(1)]. *)
Theorem open_pickle_print_order path msg w :
  (dict_get (fs w) path = Some (Fails (PickleError msg)) ->
     open_pickle path w =
     (Raise (SystemExit 1),
      emits [Open path; Load path; Print msg; Close path] w))
  /\ (dict_get (fs w) path = Some (Fails (IOError msg)) ->
        open_pickle path w =
        (Raise (SystemExit 1),
         emits [Open path; Load path; Close path; Print msg] w)).
Proof.
  split; intros Hf; rewrite open_pickle_eq, Hf; reflexivity.
Qed.

(** A file that was opened is read once and closed, whatever happens:
    when the file opens, the events of a call are the opening, one load,
    then the closing, with at most messages printed around it; when
    there is no file, or the file refuses to open, nothing is loaded or
    closed: there is the attempt and the printed message only. *)
Theorem open_pickle_closes_what_it_opens path w :
  (forall f, dict_get (fs w) path = Some f ->
     (forall msg, f <> Denied msg) ->
     exists mid post,
       io_log (snd (open_pickle path w)) =
         (io_log w ++ [Open path; Load path] ++ mid ++ [Close path] ++ post)%list /\
       forall ev, In ev (mid ++ post)%list -> exists line, ev = Print line)
  /\ (dict_get (fs w) path = None ->
        io_log (snd (open_pickle path w)) =
          (io_log w ++ [Open path; Print (no_such_file path)])%list)
  /\ (forall msg, dict_get (fs w) path = Some (Denied msg) ->
        io_log (snd (open_pickle path w)) =
          (io_log w ++ [Open path; Print msg])%list).
Proof.
  rewrite open_pickle_eq. cbn [snd]. rewrite emits_log. split; [|split].
  - intros f Hf Hopen. rewrite Hf.
    destruct f as [o|e|msg]; cbn [open_pickle_case].
    + exists [], []. split; [reflexivity|]. intros ev [].
    + destruct (is_PickleError e); [|destruct (is_IOError e)]; cbn [snd].
      * exists [Print (exn_str e)], []. split; [reflexivity|].
        intros ev [<-|[]]. eexists; reflexivity.
      * exists [], [Print (exn_str e)]. split; [reflexivity|].
        intros ev [<-|[]]. eexists; reflexivity.
      * exists [], []. split; [reflexivity|]. intros ev [].
    + exfalso. exact (Hopen msg eq_refl).
  - intros Hf. rewrite Hf. reflexivity.
  - intros msg Hf. rewrite Hf. reflexivity.
Qed.

(** ** [tokenize_sentences]: when it returns, how it fails *)

(** The call returns exactly when the argument is a string and the model
    file holds a tokenizer. *)
Theorem tokenize_sentences_returns_iff self v w :
  (exists r, fst (tokenize_sentences self v w) = Return r) <->
  (exists text t,
     v = VStr text /\
     dict_get (fs w) (tokenizer_path self) = Some (Loads (Trainer t))).
Proof.
  rewrite tokenize_sentences_result. split.
  - intros [r Hr]. destruct v; try discriminate.
    destruct (dict_get (fs w) (tokenizer_path self)) as [[[t|v|c]|e|msg]|];
      cbn in Hr; try discriminate.
    + eexists. eexists. split; reflexivity.
    + destruct (is_PickleError e); [discriminate|].
      destruct (is_IOError e); discriminate.
  - intros (text & t & -> & ->). eexists. reflexivity.
Qed.


(** A model file that unpickles to something else than a tokenizer (an
    integer, say) is read without complaint by [open_pickle]; the call
    fails later, in [_setup_tokenizer], with an [AttributeError], and by
    then the class attributes of [PunktLanguageVars] have been
    overwritten with the punctuation of the instance. *)
Theorem tokenize_sentences_no_tokenizer self text o w :
  dict_get (fs w) (tokenizer_path self) = Some (Loads (Plain o)) ->
  fst (open_pickle (tokenizer_path self) w) = Return (Plain o) /\
  fst (tokenize_sentences self (VStr text) w) =
    Raise (AttributeError (no_attribute o)) /\
  g_PunktLanguageVars (snd (tokenize_sentences self (VStr text) w)) =
    own_vars self.
Proof.
  intros Hf. rewrite open_pickle_eq, tokenize_sentences_eq, Hf.
  repeat split.
Qed.

(** What a call leaves in the class attributes of [PunktLanguageVars]:
    the punctuation of the instance when the argument is a string and
    [pickle.load] returned an object, and what was there before in every
    other case (another argument, no file, a file that does not load). *)
Theorem class_attributes_after_call self v w :
  g_PunktLanguageVars (snd (tokenize_sentences self v w)) =
  match v, dict_get (fs w) (tokenizer_path self) with
  | VStr _, Some (Loads _) => own_vars self
  | _, _ => g_PunktLanguageVars w
  end.
Proof.
  destruct v; try reflexivity.
  rewrite tokenize_sentences_eq. cbv zeta.
  destruct (dict_get (fs w) (tokenizer_path self)) as [[o|e|msg]|];
    cbn [open_pickle_case fst snd].
  - reflexivity.
  - destruct (is_PickleError e); [|destruct (is_IOError e)];
      cbn [fst snd]; apply emits_vars.
  - apply emits_vars.
  - apply emits_vars.
Qed.

(** The two collocation flags stored in the pickle do not matter:
    [_setup_tokenizer] sets both before it asks for the parameters, so
    two model files whose tokenizers differ in the flags only give the
    same result. *)
Theorem pickled_flags_do_not_matter self v w1 w2 t1 t2 :
  dict_get (fs w1) (tokenizer_path self) = Some (Loads (Trainer t1)) ->
  dict_get (fs w2) (tokenizer_path self) = Some (Loads (Trainer t2)) ->
  data t1 = data t2 ->
  fst (tokenize_sentences self v w1) = fst (tokenize_sentences self v w2).
Proof.
  intros H1 H2 Hd. rewrite !tokenize_sentences_result, H1, H2.
  destruct v; try reflexivity.
  cbn [open_pickle_case fst tokenize_case].
  unfold detected, flagged. rewrite Hd. reflexivity.
Qed.

(** ** Constructor, then call *)

Lemma open_pickle_case_loads path (f : pickle_outcome) :
  (forall msg, f <> Denied msg) ->
  exists evs, snd (open_pickle_case path (Some f)) = Open path :: Load path :: evs.
Proof.
  intros Hopen. destruct f as [o|e|msg]; cbn [open_pickle_case].
  - eexists. reflexivity.
  - destruct (is_PickleError e); [|destruct (is_IOError e)];
      eexists; reflexivity.
  - exfalso. exact (Hopen msg eq_refl).
Qed.

(** Constructor, then call, in the world the constructor left: the file
    the constructor tested is the file the call opens, and it is in the
    store.  When it opens, the call loads it.  The test is no guarantee
    that it opens: on a file that refuses to be opened the call prints
    the error and raises [SystemExit(1)], and nothing is loaded. *)
Theorem constructed_instance_finds_its_model name text w self :
  fst (__init__ name w) = Return self ->
  exists f,
    dict_get (fs (snd (__init__ name w))) (tokenizer_path self) = Some f /\
    match f with
    | Denied msg =>
        fst (tokenize_sentences self (VStr text) (snd (__init__ name w))) =
          Raise (SystemExit 1) /\
        io_log (snd (tokenize_sentences self (VStr text) (snd (__init__ name w)))) =
          (io_log w ++ [IsFile (tokenizer_path self); Open (tokenizer_path self);
                        Print msg])%list
    | _ =>
        exists evs,
          io_log (snd (tokenize_sentences self (VStr text) (snd (__init__ name w)))) =
            (io_log w ++ [IsFile (tokenizer_path self); Open (tokenizer_path self);
                          Load (tokenizer_path self)] ++ evs)%list
    end.
Proof.
  rewrite __init___eq.
  destruct (dict_get (g_PUNCTUATION w) (lower name)) as [entry|] eqn:Hentry;
    [|discriminate].
  cbv zeta. cbn [fst snd].
  destruct (dict_get (fs w) _) as [f|] eqn:Hf; [|discriminate].
  intros H. inversion H. cbn [tokenizer_path instance_of fs emit].
  exists f. split; [exact Hf|].
  rewrite tokenize_sentences_eq. cbv zeta.
  cbn [tokenizer_path instance_of fs emit]. rewrite Hf.
  assert (Hopen : (exists msg, f = Denied msg) \/ forall msg, f <> Denied msg).
  { destruct f; [right; discriminate | right; discriminate | left; eexists; reflexivity]. }
  destruct Hopen as [[msg ->] | Hopen].
  - cbn [open_pickle_case fst snd tokenize_case]. split; [reflexivity|].
    rewrite emits_log. cbn [io_log emit]. rewrite <- app_assoc. reflexivity.
  - destruct (open_pickle_case_loads
                (model_path (HOME w) (lower name) (file entry)) f Hopen)
      as [evs Hevs].
    assert (Hlog :
      io_log
        (match fst (open_pickle_case (model_path (HOME w) (lower name) (file entry)) (Some f)) with
         | Return _ =>
             set_PunktLanguageVars
               (own_vars (instance_of (HOME w) (lower name) entry))
               (emits (snd (open_pickle_case (model_path (HOME w) (lower name) (file entry)) (Some f)))
                  (emit (IsFile (model_path (HOME w) (lower name) (file entry))) w))
         | Raise _ =>
             emits (snd (open_pickle_case (model_path (HOME w) (lower name) (file entry)) (Some f)))
               (emit (IsFile (model_path (HOME w) (lower name) (file entry))) w)
         end) =
      (io_log w ++ [IsFile (model_path (HOME w) (lower name) (file entry));
                    Open (model_path (HOME w) (lower name) (file entry));
                    Load (model_path (HOME w) (lower name) (file entry))] ++ evs)%list).
    { rewrite Hevs.
      destruct (fst (open_pickle_case _ (Some f)));
        cbn [io_log set_PunktLanguageVars]; rewrite emits_log;
        cbn [io_log emit]; rewrite <- app_assoc; reflexivity. }
    cbn [snd].
    destruct f as [o|e|msg]; [exists evs; exact Hlog | exists evs; exact Hlog |].
    exfalso. exact (Hopen msg eq_refl).
Qed.

End Further.

(** * The further properties at work *)

Module Sample2.

#[local] Existing Instance SpecPunkt.punkt.

(** The Latin model file is cut short: [pickle.load] raises [EOFError]. *)
Definition truncated : world :=
  module_load "/home/user/"
    [ (Sample.latin_pickle, Fails (EOFError "Ran out of input")) ].

(** The Latin model file holds the pickle of an integer. *)
Definition no_model : world :=
  module_load "/home/user"
    [ (Sample.latin_pickle, Loads (Plain (VInt 7))) ].

(** The Latin tokenizer with both collocation flags already set, and a
    world whose model file holds it. *)
Definition tokenizer_flags_set : trainer :=
  {| INCLUDE_ALL_COLLOCS := true;
     INCLUDE_ABBREV_COLLOCS := true;
     data := Sample.latin_model : trainer_data |}.

Definition flags_set : world :=
  module_load "/home/user"
    [ (Sample.latin_pickle, Loads (Trainer tokenizer_flags_set)) ].


(** The Latin model file is there and may not be read. *)
Definition locked : world :=
  module_load "/home/user"
    [ (Sample.latin_pickle, Denied "[Errno 13] Permission denied") ].

End Sample2.

Section FurtherRuns.

#[local] Existing Instance SpecPunkt.punkt.

Import Sample Sample2.

(** [constructor_on_module_table] at ['LATIN'], both models installed. *)
Lemma constructor_on_module_table_witness :
  fst (__init__ "LATIN" installed) = Return latin <->
  exists entry,
    dict_get PUNCTUATION (lower "LATIN") = Some entry /\
    (lower "LATIN" = "greek" \/ lower "LATIN" = "latin") /\
    dict_get (fs installed) (cltk_data_path (HOME installed) (lower "LATIN")) <> None /\
    latin = {| language := lower "LATIN";
               internal_punctuation := internal entry;
               external_punctuation := external entry;
               tokenizer_path := cltk_data_path (HOME installed) (lower "LATIN") |}.
Proof.
  apply (constructor_on_module_table "LATIN" installed latin).
  reflexivity.
Defined.

(** [constructor_round_trip] at ['Greek']. *)
Lemma constructor_round_trip_witness :
  language greek = lower "Greek" /\
  lower (language greek) = language greek /\
  fst (__init__ (language greek) (snd (__init__ "Greek" installed))) = Return greek.
Proof.
  apply (constructor_round_trip "Greek" installed greek).
  reflexivity.
Defined.

(** [_setup_language_variables_case_sensitive] at ['Latin']. *)
Lemma _setup_language_variables_case_sensitive_witness :
  _setup_language_variables "Latin" installed =
  (Raise (AssertionError "Sentence tokenizer not available for language."), installed).
Proof.
  apply (_setup_language_variables_case_sensitive "Latin" installed).
  - reflexivity.
  - discriminate.
Defined.

(** [open_pickle_propagates] at a truncated model file. *)
Lemma open_pickle_propagates_witness :
  fst (open_pickle latin_pickle truncated) = Raise (EOFError "Ran out of input") /\
  io_log (snd (open_pickle latin_pickle truncated)) =
    (io_log truncated ++ [Open latin_pickle; Load latin_pickle; Close latin_pickle])%list.
Proof.
  apply (open_pickle_propagates latin_pickle (EOFError "Ran out of input") truncated);
    reflexivity.
Defined.


(** [tokenize_sentences_no_tokenizer] at the pickle of an integer. *)
Lemma tokenize_sentences_no_tokenizer_witness :
  fst (open_pickle (tokenizer_path latin) no_model) = Return (Plain (VInt 7)) /\
  fst (tokenize_sentences latin (VStr gallia) no_model) =
    Raise (AttributeError (no_attribute (VInt 7))) /\
  g_PunktLanguageVars (snd (tokenize_sentences latin (VStr gallia) no_model)) =
    own_vars latin.
Proof.
  apply (tokenize_sentences_no_tokenizer latin gallia (VInt 7) no_model).
  reflexivity.
Defined.

(** [pickled_flags_do_not_matter] at the Latin model, flags unset and
    set. *)
Lemma pickled_flags_do_not_matter_witness :
  fst (tokenize_sentences latin (VStr gallia) installed) =
  fst (tokenize_sentences latin (VStr gallia) flags_set).
Proof.
  apply (pickled_flags_do_not_matter latin (VStr gallia) installed flags_set
           (tokenizer latin_model) tokenizer_flags_set);
    reflexivity.
Defined.

(** [constructed_instance_finds_its_model] at ['latin'], with a model
    file that may not be read. *)
Lemma constructed_instance_finds_its_model_witness :
  exists f,
    dict_get (fs (snd (__init__ "latin" locked))) (tokenizer_path latin) = Some f /\
    match f with
    | Denied msg =>
        fst (tokenize_sentences latin (VStr gallia) (snd (__init__ "latin" locked))) =
          Raise (SystemExit 1) /\
        io_log (snd (tokenize_sentences latin (VStr gallia)
                       (snd (__init__ "latin" locked)))) =
          (io_log locked ++ [IsFile (tokenizer_path latin); Open (tokenizer_path latin);
                             Print msg])%list
    | _ =>
        exists evs,
          io_log (snd (tokenize_sentences latin (VStr gallia)
                         (snd (__init__ "latin" locked)))) =
            (io_log locked ++ [IsFile (tokenizer_path latin); Open (tokenizer_path latin);
                               Load (tokenizer_path latin)] ++ evs)%list
    end.
Proof.
  apply (constructed_instance_finds_its_model "latin" gallia locked latin).
  reflexivity.
Defined.

End FurtherRuns.
